(** * RadioButtonHelper: the toggle-button controller of CreateJSRadioButtons

    A shallow embedding of [src/RadioButtonHelper.js].  The helper object
    and the display object it manages (its [target]) are two JavaScript
    objects; the helper keeps a reference to the target, and the caller
    keeps one too.  The embedding threads both objects explicitly: every
    method takes the helper and the target and gives back both, so a write
    through [this.target] is visible to whoever holds the target. *)

From Stdlib Require Import ZArith String List Bool Lia.
Import ListNotations.
Open Scope string_scope.
Open Scope list_scope.

(** ** JavaScript values *)

(** The primitive values the helper can meet as labels, as the [play]
    flag and as the [type] of an event.  Frame numbers are integers. *)
Inductive value : Type :=
| VUndefined
| VNull
| VBool (b : bool)
| VNum (n : Z)
| VStr (s : string).

(** [v == null]: loose equality with [null] holds for [null] and
    [undefined] and for no other primitive. *)
Definition eq_null (v : value) : bool :=
  match v with
  | VUndefined | VNull => true
  | _ => false
  end.

(** [ToBoolean v], the test of [if (v)] and of [v && ...]. *)
Definition truthy (v : value) : bool :=
  match v with
  | VUndefined | VNull => false
  | VBool b => b
  | VNum n => negb (Z.eqb n 0)
  | VStr s => negb (String.eqb s EmptyString)
  end.

(** [v == "s"] for a string literal that is not numeric: a string is
    compared as it is; a number or a boolean is compared with
    [ToNumber "s"], which is [NaN], and [null] and [undefined] equal only
    each other. *)
Definition eq_type (v : value) (s : string) : bool :=
  match v with
  | VStr x => String.eqb x s
  | _ => false
  end.

(** ** Outcomes of calls that may throw *)

(** A call either returns or throws.  What the objects look like when an
    exception leaves a method is not kept. *)
Inductive outcome (A : Type) : Type :=
| Done (a : A)
| TypeError          (* a call on a property that is not a function *)
| StackOverflow.     (* the recursion ran out of fuel *)
Arguments Done {A} a.
Arguments TypeError {A}.
Arguments StackOverflow {A}.

Definition bind {A B} (m : outcome A) (k : A -> outcome B) : outcome B :=
  match m with
  | Done a => k a
  | TypeError => TypeError
  | StackOverflow => StackOverflow
  end.

Notation "x <- m ;; k" := (bind m (fun x => k))
  (at level 61, m at next level, right associativity).
Notation "' p <- m ;; k" := (bind m (fun x => let 'p := x in k))
  (at level 61, p pattern, m at next level, right associativity).

(** ** The display object *)

(** Method calls a display object receives, in the order received. *)
Inductive call : Type :=
| AddEventListener (name : string)
| RemoveEventListener (name : string)
| GotoAndPlay (label : value)
| GotoAndStop (label : value)
| OriginalReset.

(** What a [_reset] or [__reset] slot of a display object holds: the
    object's own reset function, known by what it does to the [paused]
    flag, or the helper's [_reset], which every helper shares through the
    prototype. *)
Inductive hook : Type :=
| Original (f : value -> value)
| Injected.

(** Where [hitArea] of the target points. *)
Inductive hitref : Type :=
| NoHitArea
| HitSelf        (* the target itself *)
| HitOther.      (* the separate hit object *)

(** A MovieClip, Sprite or other display object, reduced to what the
    helper reads and writes.  The four booleans say whether the method of
    that name is defined on the object. *)
Record displayObject : Type := mkDisplayObject {
  addEventListener : bool;
  removeEventListener : bool;
  gotoAndPlay : bool;
  gotoAndStop : bool;
  mouseChildren : value;
  cursor : value;
  actionsEnabled : value;
  hitArea : hitref;
  paused : value;
  _reset : option hook;
  __reset : option hook;
  calls : list call
}.

Definition set_mouseChildren (v : value) (o : displayObject) : displayObject :=
  mkDisplayObject (addEventListener o) (removeEventListener o) (gotoAndPlay o)
    (gotoAndStop o) v (cursor o) (actionsEnabled o) (hitArea o) (paused o)
    (_reset o) (__reset o) (calls o).

Definition set_cursor (v : value) (o : displayObject) : displayObject :=
  mkDisplayObject (addEventListener o) (removeEventListener o) (gotoAndPlay o)
    (gotoAndStop o) (mouseChildren o) v (actionsEnabled o) (hitArea o) (paused o)
    (_reset o) (__reset o) (calls o).

Definition set_actionsEnabled (v : value) (o : displayObject) : displayObject :=
  mkDisplayObject (addEventListener o) (removeEventListener o) (gotoAndPlay o)
    (gotoAndStop o) (mouseChildren o) (cursor o) v (hitArea o) (paused o)
    (_reset o) (__reset o) (calls o).

Definition set_hitArea (r : hitref) (o : displayObject) : displayObject :=
  mkDisplayObject (addEventListener o) (removeEventListener o) (gotoAndPlay o)
    (gotoAndStop o) (mouseChildren o) (cursor o) (actionsEnabled o) r (paused o)
    (_reset o) (__reset o) (calls o).

Definition set_paused (v : value) (o : displayObject) : displayObject :=
  mkDisplayObject (addEventListener o) (removeEventListener o) (gotoAndPlay o)
    (gotoAndStop o) (mouseChildren o) (cursor o) (actionsEnabled o) (hitArea o) v
    (_reset o) (__reset o) (calls o).

Definition set_resets (r r' : option hook) (o : displayObject) : displayObject :=
  mkDisplayObject (addEventListener o) (removeEventListener o) (gotoAndPlay o)
    (gotoAndStop o) (mouseChildren o) (cursor o) (actionsEnabled o) (hitArea o)
    (paused o) r r' (calls o).

(** The object receives the call [c]. *)
Definition record (c : call) (o : displayObject) : displayObject :=
  mkDisplayObject (addEventListener o) (removeEventListener o) (gotoAndPlay o)
    (gotoAndStop o) (mouseChildren o) (cursor o) (actionsEnabled o) (hitArea o)
    (paused o) (_reset o) (__reset o) (calls o ++ [c]).

(** [o.addEventListener(type, this)]. *)
Definition call_addEventListener (type : string) (o : displayObject)
  : outcome displayObject :=
  if addEventListener o then Done (record (AddEventListener type) o)
  else TypeError.

(** [o.removeEventListener(type, this)]. *)
Definition call_removeEventListener (type : string) (o : displayObject)
  : outcome displayObject :=
  if removeEventListener o then Done (record (RemoveEventListener type) o)
  else TypeError.

(** [o.gotoAndPlay&&o.gotoAndPlay(label)]. *)
Definition guarded_gotoAndPlay (label : value) (o : displayObject) : displayObject :=
  if gotoAndPlay o then record (GotoAndPlay label) o else o.

(** [o.gotoAndStop&&o.gotoAndStop(label)]. *)
Definition guarded_gotoAndStop (label : value) (o : displayObject) : displayObject :=
  if gotoAndStop o then record (GotoAndStop label) o else o.

(** ** The helper object *)

(** The own properties of a helper whose constructor ran to its end,
    a reference to the target apart (the target is threaded beside the
    helper).  [play] is kept as the constructor received it. *)
Record helper : Type := mkHelper {
  overFalseLabel : value;
  outFalseLabel : value;
  downFalseLabel : value;
  overTrueLabel : value;
  outTrueLabel : value;
  downTrueLabel : value;
  play : value;
  _isPressed : bool;
  _isOver : bool;
  _enabled : bool;
  _checked : bool
}.

Definition set_isPressed (b : bool) (h : helper) : helper :=
  mkHelper (overFalseLabel h) (outFalseLabel h) (downFalseLabel h)
    (overTrueLabel h) (outTrueLabel h) (downTrueLabel h) (play h)
    b (_isOver h) (_enabled h) (_checked h).

Definition set_isOver (b : bool) (h : helper) : helper :=
  mkHelper (overFalseLabel h) (outFalseLabel h) (downFalseLabel h)
    (overTrueLabel h) (outTrueLabel h) (downTrueLabel h) (play h)
    (_isPressed h) b (_enabled h) (_checked h).

Definition set_enabled (b : bool) (h : helper) : helper :=
  mkHelper (overFalseLabel h) (outFalseLabel h) (downFalseLabel h)
    (overTrueLabel h) (outTrueLabel h) (downTrueLabel h) (play h)
    (_isPressed h) (_isOver h) b (_checked h).

Definition set_checked (b : bool) (h : helper) : helper :=
  mkHelper (overFalseLabel h) (outFalseLabel h) (downFalseLabel h)
    (overTrueLabel h) (outTrueLabel h) (downTrueLabel h) (play h)
    (_isPressed h) (_isOver h) (_enabled h) b.

(** An event object, reduced to the one property the handler reads. *)
Record event : Type := mkEvent { type : value }.

(** The four event names, in the order [setEnabled] goes through them. *)
Definition event_names : list string :=
  ["rollover"; "rollout"; "mousedown"; "pressup"].

(** *** setEnabled / getEnabled *)

(** [p.setEnabled], also the setter of the [enabled] property. *)
Definition setEnabled (v : bool) (this : helper) (o : displayObject)
  : outcome (helper * displayObject) :=
  if Bool.eqb v (_enabled this) then Done (this, o)
  else
    let this := set_enabled v this in
    if v then
      let o := set_cursor (VStr "pointer") o in
      o <- call_addEventListener "rollover" o ;;
      o <- call_addEventListener "rollout" o ;;
      o <- call_addEventListener "mousedown" o ;;
      o <- call_addEventListener "pressup" o ;;
      let o := match _reset o with
               | Some r => set_resets (Some Injected) (Some r) o
               | None => o
               end in
      Done (this, o)
    else
      let o := set_cursor VNull o in
      o <- call_removeEventListener "rollover" o ;;
      o <- call_removeEventListener "rollout" o ;;
      o <- call_removeEventListener "mousedown" o ;;
      o <- call_removeEventListener "pressup" o ;;
      let o := match __reset o with
               | Some r => set_resets (Some r) None o
               | None => o
               end in
      Done (this, o).

Definition getEnabled (this : helper) : bool := _enabled this.

(** *** getValue / setValue *)

Definition getValue (this : helper) : bool := _checked this.

(** The closing [if (this.play) ... else ...] of [setValue] and of
    [handleEvent]: the label goes to [gotoAndPlay] or to [gotoAndStop],
    whichever [play] selects, when the target has that method. *)
Definition show (this : helper) (label : value) (t : displayObject)
  : displayObject :=
  if truthy (play this) then guarded_gotoAndPlay label t
  else guarded_gotoAndStop label t.

(** [setValue] up to the choice of the label. *)
Definition setValue_label (val : bool) (this : helper) : helper * value :=
  let this := set_checked val this in
  if _checked this then
    if _isPressed this then (this, downTrueLabel this)
    else if _isOver this then (this, overTrueLabel this)
    else (this, outTrueLabel this)
  else
    if _isPressed this then (this, downFalseLabel this)
    else if _isOver this then (this, overFalseLabel this)
    else (this, outFalseLabel this).

Definition setValue (val : bool) (this : helper) (t : displayObject)
  : helper * displayObject :=
  let '(this, label) := setValue_label val this in
  (this, show this label t).

(** *** handleEvent *)

(** [handleEvent] up to the choice of the label. *)
Definition handleEvent_label (evt : event) (this : helper) : helper * value :=
  let type := type evt in
  if _checked this then
    if eq_type type "mousedown" then
      let this := set_isPressed true this in
      let this := set_checked false this in
      (this, downFalseLabel this)
    else if eq_type type "pressup" then
      let this := set_isPressed false this in
      (this, if _isOver this then overTrueLabel this else outTrueLabel this)
    else if eq_type type "rollover" then
      let this := set_isOver true this in
      (this, if _isPressed this then downTrueLabel this else overTrueLabel this)
    else (* rollout and default *)
      let this := set_isOver false this in
      (this, if _isPressed this then overTrueLabel this else outTrueLabel this)
  else
    if eq_type type "mousedown" then
      let this := set_isPressed true this in
      let this := set_checked true this in
      (this, downTrueLabel this)
    else if eq_type type "pressup" then
      let this := set_isPressed false this in
      (this, if _isOver this then overFalseLabel this else outFalseLabel this)
    else if eq_type type "rollover" then
      let this := set_isOver true this in
      (this, if _isPressed this then downFalseLabel this else overFalseLabel this)
    else (* rollout and default *)
      let this := set_isOver false this in
      (this, if _isPressed this then overFalseLabel this else outFalseLabel this).

Definition handleEvent (evt : event) (this : helper) (t : displayObject)
  : helper * displayObject :=
  let '(this, label) := handleEvent_label evt this in
  (this, show this label t).

(** *** The injected reset *)

(** A call of the function held in a reset slot, with the display object
    as [this].  The object's own reset is logged and acts on [paused];
    [Injected] is [p._reset]: it reads [paused], calls [this.__reset()]
    and writes [paused] back.  [fuel] bounds the depth of calls. *)
Fixpoint call_hook (fuel : nat) (h : hook) (this : displayObject)
  {struct fuel} : outcome displayObject :=
  match h with
  | Original f => Done (set_paused (f (paused this)) (record OriginalReset this))
  | Injected =>
      match fuel with
      | O => StackOverflow
      | S fuel =>
          let p := paused this in
          match __reset this with
          | None => TypeError
          | Some h' =>
              this <- call_hook fuel h' this ;;
              Done (set_paused p this)
          end
      end
  end.

(** [p._reset] run on a display object. *)
Definition prototype_reset (fuel : nat) (this : displayObject)
  : outcome displayObject :=
  call_hook (S fuel) Injected this.

(** [o._reset()]. *)
Definition call_reset (fuel : nat) (o : displayObject) : outcome displayObject :=
  match _reset o with
  | Some h => call_hook fuel h o
  | None => TypeError
  end.

(** *** The constructor *)

(** The [hitArea] argument: omitted, the target itself (the class comment
    allows it), or another display object. *)
Inductive hitarg : Type :=
| HitOmitted
| HitTarget
| HitObject (o : displayObject).

(** What [new RadioButtonHelper(...)] gives: an object with no property of
    its own when the constructor returned at its first line, a helper
    otherwise. *)
Inductive instance : Type :=
| Inert
| Live (h : helper).

(** [x == null ? d : x]. *)
Definition or_default (x : value) (d : string) : value :=
  if eq_null x then VStr d else x.

(** The constructor.  The result lists the new object, the target and the
    hit object as the constructor leaves them.  The [enabled] accessor is
    taken as defined on the prototype, so that [this.enabled = true] runs
    [setEnabled]. *)
Definition RadioButtonHelper (target : displayObject)
    (outFalseLabel overFalseLabel downFalseLabel
     outTrueLabel overTrueLabel downTrueLabel play : value)
    (hitArea : hitarg) (hitLabel : value)
  : outcome (instance * displayObject * hitarg) :=
  if negb (addEventListener target) then Done (Inert, target, hitArea)
  else
    let this :=
      mkHelper (or_default overFalseLabel "overFalse")
               (or_default outFalseLabel "outFalse")
               (or_default downFalseLabel "downFalse")
               (or_default overTrueLabel "overTrue")
               (or_default outTrueLabel "outTrue")
               (or_default downTrueLabel "downTrue")
               play false false false false in
    let target := set_mouseChildren (VBool false) target in
    '(this, target) <- setEnabled true this target ;;
    let '(this, target) := handleEvent (mkEvent VUndefined) this target in
    match hitArea with
    | HitOmitted => Done (Live this, target, HitOmitted)
    | HitTarget =>
        let target :=
          if truthy hitLabel then
            guarded_gotoAndStop hitLabel (set_actionsEnabled (VBool false) target)
          else target in
        Done (Live this, set_hitArea HitSelf target, HitTarget)
    | HitObject o =>
        let o :=
          if truthy hitLabel then
            guarded_gotoAndStop hitLabel (set_actionsEnabled (VBool false) o)
          else o in
        Done (Live this, set_hitArea HitOther target, HitObject o)
    end.

(** ** Vocabulary of the properties *)

(** The three labels of the current [_checked] value. *)
Definition out_label (this : helper) : value :=
  if _checked this then outTrueLabel this else outFalseLabel this.

Definition over_label (this : helper) : value :=
  if _checked this then overTrueLabel this else overFalseLabel this.

Definition down_label (this : helper) : value :=
  if _checked this then downTrueLabel this else downFalseLabel this.

(** The rule pressed > hovered > idle, each split by checked, on three
    flags and six labels.  This definition follows the words of the
    specification; the theorems compare it with what the methods
    compute. *)
Definition priority_label (checked pressed hovered : bool)
    (outFalse overFalse downFalse outTrue overTrue downTrue : value) : value :=
  if pressed then (if checked then downTrue else downFalse)
  else if hovered then (if checked then overTrue else overFalse)
  else (if checked then outTrue else outFalse).

(** The rule with the labels of [this]. *)
Definition label_for (this : helper) (checked pressed hovered : bool) : value :=
  priority_label checked pressed hovered
    (outFalseLabel this) (overFalseLabel this) (downFalseLabel this)
    (outTrueLabel this) (overTrueLabel this) (downTrueLabel this).

(** The label the rule gives to the state of [this]. *)
Definition state_label (this : helper) : value :=
  label_for this (_checked this) (_isPressed this) (_isOver this).

(** The call [show] makes when the target has the method, and whether it
    has it. *)
Definition seek_call (this : helper) (label : value) : call :=
  if truthy (play this) then GotoAndPlay label else GotoAndStop label.

Definition can_seek (this : helper) (t : displayObject) : bool :=
  if truthy (play this) then gotoAndPlay t else gotoAndStop t.

Definition emitted (this : helper) (label : value) (t : displayObject) : list call :=
  if can_seek this t then [seek_call this label] else [].

Definition is_seek (c : call) : bool :=
  match c with
  | GotoAndPlay _ | GotoAndStop _ => true
  | _ => false
  end.

Definition is_subscription (c : call) : bool :=
  match c with
  | AddEventListener _ | RemoveEventListener _ => true
  | _ => false
  end.

(** An event whose type is none of "mousedown", "pressup" and "rollover"
    takes the last branch of [handleEvent]: "rollout", any other type,
    and the empty object of the constructor. *)
Definition fallback (evt : event) : bool :=
  negb (eq_type (type evt) "mousedown")
  && negb (eq_type (type evt) "pressup")
  && negb (eq_type (type evt) "rollover").

Definition rollover : event := mkEvent (VStr "rollover").
Definition rollout : event := mkEvent (VStr "rollout").
Definition mousedown : event := mkEvent (VStr "mousedown").
Definition pressup : event := mkEvent (VStr "pressup").
(** [{}], the argument of the call in the constructor. *)
Definition no_event : event := mkEvent VUndefined.

(** The operations that show a label. *)
Inductive operation : Type :=
| Handle (evt : event)
| SetValue (val : bool).

Definition perform_label (op : operation) (this : helper) : helper * value :=
  match op with
  | Handle evt => handleEvent_label evt this
  | SetValue val => setValue_label val this
  end.

Definition perform (op : operation) (this : helper) (t : displayObject)
  : helper * displayObject :=
  match op with
  | Handle evt => handleEvent evt this t
  | SetValue val => setValue val this t
  end.

Definition is_fallback (op : operation) : bool :=
  match op with
  | Handle evt => fallback evt
  | SetValue _ => false
  end.

(** Events delivered one after the other. *)
Fixpoint deliver (evts : list event) (this : helper) (t : displayObject)
  : helper * displayObject :=
  match evts with
  | [] => (this, t)
  | evt :: evts =>
      let '(this, t) := handleEvent evt this t in
      deliver evts this t
  end.

(** A helper as the constructor leaves it for omitted labels, with the
    given flags; and a MovieClip-like target: every method defined, its
    own reset clearing [paused]. *)
Definition sample_helper (checked pressed hovered : bool) : helper :=
  mkHelper (VStr "overFalse") (VStr "outFalse") (VStr "downFalse")
           (VStr "overTrue") (VStr "outTrue") (VStr "downTrue")
           VUndefined pressed hovered true checked.

Definition movieclip_reset : hook := Original (fun _ => VBool false).

Definition sample_target : displayObject :=
  mkDisplayObject true true true true VUndefined VUndefined VUndefined
    NoHitArea (VBool true) (Some movieclip_reset) None [].

(** A display object that dispatches events but has no timeline (a Shape
    or a Container), and a plain object with no method at all. *)
Definition shape_target : displayObject :=
  mkDisplayObject true true false false VUndefined VUndefined VUndefined
    NoHitArea VUndefined None None [].

Definition plain_object : displayObject :=
  mkDisplayObject false false false false VUndefined VUndefined VUndefined
    NoHitArea VUndefined None None [].

(** The writes and calls of the [if (value)] branch of [setEnabled] up
    to the reset slots, and the exchange of the reset slots. *)
Definition subscribed (o : displayObject) : displayObject :=
  record (AddEventListener "pressup")
    (record (AddEventListener "mousedown")
       (record (AddEventListener "rollout")
          (record (AddEventListener "rollover")
             (set_cursor (VStr "pointer") o)))).

Definition wrapped (o : displayObject) : displayObject :=
  match _reset o with
  | Some r => set_resets (Some Injected) (Some r) o
  | None => o
  end.

(** An argument left out of the call, or passed as [null]. *)
Definition omitted (x : value) : Prop := x = VUndefined \/ x = VNull.

(** A label property after construction: the fixed string [d] when the
    argument was omitted, the argument itself otherwise (this definition
    follows the words of the specification). *)
Definition default_or_kept (x : value) (d : string) (field : value) : Prop :=
  (omitted x -> field = VStr d) /\ (~ omitted x -> field = x).

(** The helper as the constructor leaves it. *)
Definition built (outFalseLabel overFalseLabel downFalseLabel
                  outTrueLabel overTrueLabel downTrueLabel play : value) : helper :=
  mkHelper (or_default overFalseLabel "overFalse")
           (or_default outFalseLabel "outFalse")
           (or_default downFalseLabel "downFalse")
           (or_default overTrueLabel "overTrue")
           (or_default outTrueLabel "outTrue")
           (or_default downTrueLabel "downTrue")
           play false false true false.

(** The target after [mouseChildren = false], [enabled = true] and
    [handleEvent({})]. *)
Definition set_up (this : helper) (target : displayObject) : displayObject :=
  show this (outFalseLabel this)
       (wrapped (subscribed (set_mouseChildren (VBool false) target))).

(** The [if (hitArea)] block, on the target and on the hit object. *)
Definition with_hitArea (hitArea : hitarg) (hitLabel : value)
    (target : displayObject) : displayObject * hitarg :=
  match hitArea with
  | HitOmitted => (target, HitOmitted)
  | HitTarget =>
      (set_hitArea HitSelf
         (if truthy hitLabel
          then guarded_gotoAndStop hitLabel (set_actionsEnabled (VBool false) target)
          else target),
       HitTarget)
  | HitObject o =>
      (set_hitArea HitOther target,
       HitObject (if truthy hitLabel
                  then guarded_gotoAndStop hitLabel (set_actionsEnabled (VBool false) o)
                  else o))
  end.

(** [p.toString], which every instance has through the prototype. *)
Definition toString (this : instance) : string := "[RadioButtonHelper]".

(** The method [setEnabled] calls on the target for the value [v]. *)
Definition listener_method (v : bool) (o : displayObject) : bool :=
  if v then addEventListener o else removeEventListener o.

(** The writes and calls of the [else] branch of [setEnabled] up to the
    reset slots, and the return of the reset slots. *)
Definition unsubscribed (o : displayObject) : displayObject :=
  record (RemoveEventListener "pressup")
    (record (RemoveEventListener "mousedown")
       (record (RemoveEventListener "rollout")
          (record (RemoveEventListener "rollover")
             (set_cursor VNull o)))).

Definition unwrapped (o : displayObject) : displayObject :=
  match __reset o with
  | Some r => set_resets (Some r) None o
  | None => o
  end.

Definition is_mousedown (evt : event) : bool := eq_type (type evt) "mousedown".

(** The six label properties of a helper. *)
Definition six_labels (this : helper) : list value :=
  [outFalseLabel this; overFalseLabel this; downFalseLabel this;
   outTrueLabel this; overTrueLabel this; downTrueLabel this].

(** Two helpers with the same labels, [play] and [_enabled]. *)
Definition same_config (a b : helper) : Prop :=
  six_labels a = six_labels b /\ play a = play b /\ _enabled a = _enabled b.

(** Two display objects that differ by their call log at most. *)
Definition same_but_calls (a b : displayObject) : Prop :=
  addEventListener a = addEventListener b
  /\ removeEventListener a = removeEventListener b
  /\ gotoAndPlay a = gotoAndPlay b
  /\ gotoAndStop a = gotoAndStop b
  /\ mouseChildren a = mouseChildren b
  /\ cursor a = cursor b
  /\ actionsEnabled a = actionsEnabled b
  /\ hitArea a = hitArea b
  /\ paused a = paused b
  /\ _reset a = _reset b
  /\ __reset a = __reset b.

(** Whether the [if (hitArea)] block of the constructor seeks on the
    target: the target is its own hit area and the hit label is truthy. *)
Definition hit_label_on_target (hitArea : hitarg) (hitLabel : value) : bool :=
  match hitArea with
  | HitTarget => truthy hitLabel
  | _ => false
  end.

(** ** Basic facts *)

Ltac flags this :=
  destruct this as [ovF ouF dnF ovT ouT dnT pl pressed over enabled checked];
  cbn in *.

Lemma show_calls (this : helper) (label : value) (t : displayObject) :
  calls (show this label t) = calls t ++ emitted this label t.
Proof.
  unfold show, emitted, can_seek, seek_call, guarded_gotoAndPlay, guarded_gotoAndStop.
  destruct (truthy (play this)).
  - destruct (gotoAndPlay t); cbn; [reflexivity | now rewrite app_nil_r].
  - destruct (gotoAndStop t); cbn; [reflexivity | now rewrite app_nil_r].
Qed.

Lemma emitted_length (this : helper) (label : value) (t : displayObject) :
  length (emitted this label t) <= 1.
Proof. unfold emitted. destruct (can_seek this t); cbn; lia. Qed.

Lemma emitted_no_subscription (this : helper) (label : value) (t : displayObject) :
  filter is_subscription (emitted this label t) = [].
Proof.
  unfold emitted, seek_call.
  destruct (can_seek this t); [destruct (truthy (play this)) |]; reflexivity.
Qed.

Lemma fallback_rollout : fallback rollout = true.
Proof. reflexivity. Qed.

Lemma fallback_no_event : fallback no_event = true.
Proof. reflexivity. Qed.

(** In the last branch the handler clears [_isOver] and picks the over
    label under a press, the out label otherwise. *)
Lemma handleEvent_label_fallback (evt : event) (this : helper) :
  fallback evt = true ->
  handleEvent_label evt this =
    (set_isOver false this,
     if _isPressed this then over_label this else out_label this).
Proof.
  unfold fallback, handleEvent_label, over_label, out_label.
  intros H.
  destruct (eq_type (type evt) "mousedown"); [discriminate |].
  destruct (eq_type (type evt) "pressup"); [discriminate |].
  destruct (eq_type (type evt) "rollover"); [discriminate |].
  flags this. destruct checked; reflexivity.
Qed.

Lemma perform_show (op : operation) (this : helper) (t : displayObject) :
  perform op this t =
    (fst (perform_label op this),
     show (fst (perform_label op this)) (snd (perform_label op this)) t).
Proof.
  destruct op as [evt | val]; cbn [perform perform_label];
    unfold handleEvent, setValue.
  - destruct (handleEvent_label evt this); reflexivity.
  - destruct (setValue_label val this); reflexivity.
Qed.

(** ** The label shown after an operation *)

(** C1, as stated, fails.  With labels left to their defaults, a
    "rollout" that arrives while the button is pressed shows "overFalse",
    whereas the rule pressed > hovered > idle gives "downFalse" for the
    state the handler leaves (pressed, not hovered, unchecked); so the
    label is not a function of the resulting state alone. *)
Lemma state_label_fails_on_pressed_rollout :
  snd (perform_label (Handle rollout) (sample_helper false true true))
    = VStr "overFalse"
  /\ state_label (fst (perform_label (Handle rollout) (sample_helper false true true)))
    = VStr "downFalse"
  /\ ~ (forall (op : operation) (this : helper),
          snd (perform_label op this) = state_label (fst (perform_label op this))).
Proof.
  split; [reflexivity | split; [reflexivity |]].
  intros H.
  specialize (H (Handle rollout) (sample_helper false true true)).
  discriminate H.
Qed.

(** C1, amended.  After every operation (an event of any type, the
    empty event of the constructor included, or [setValue]) the label
    handed to [gotoAndPlay]/[gotoAndStop] is the one the resulting state
    gives by pressed > hovered > idle, split by checked, except in the
    "rollout"/default branch under a press, where it is the over label
    of the current checked value. *)
Theorem shown_label_by_state (op : operation) (this : helper) (t : displayObject) :
  let this' := fst (perform_label op this) in
  let label :=
    if is_fallback op && _isPressed this' then over_label this'
    else state_label this' in
  snd (perform_label op this) = label
  /\ perform op this t = (this', show this' label t).
Proof.
  cbv zeta. rewrite perform_show.
  assert (E : snd (perform_label op this) =
              if is_fallback op && _isPressed (fst (perform_label op this))
              then over_label (fst (perform_label op this))
              else state_label (fst (perform_label op this))).
  { destruct op as [evt | val]; cbn [perform_label is_fallback].
    - unfold fallback, handleEvent_label.
      destruct (eq_type (type evt) "mousedown");
        [| destruct (eq_type (type evt) "pressup");
           [| destruct (eq_type (type evt) "rollover")]];
        flags this; destruct checked, pressed, over; reflexivity.
    - unfold setValue_label.
      flags this; destruct val, pressed, over; reflexivity. }
  split; [exact E | now rewrite <- E].
Qed.

(** C2.  Under a press, a "rollout" (and any event the handler does not
    recognise) clears [_isOver], leaves the other flags alone, and hands
    the over label of the current checked value to the target:
    [overTrueLabel] when checked, [overFalseLabel] when not. *)
Theorem rollout_while_pressed_shows_over
    (evt : event) (this : helper) (t : displayObject) :
  fallback evt = true ->
  _isPressed this = true ->
  handleEvent evt this t =
    (set_isOver false this,
     show this (if _checked this then overTrueLabel this else overFalseLabel this) t)
  /\ _isOver (fst (handleEvent evt this t)) = false
  /\ calls (snd (handleEvent evt this t)) =
       calls t ++ emitted this (if _checked this then overTrueLabel this
                                else overFalseLabel this) t.
Proof.
  intros Hf Hp. unfold handleEvent.
  rewrite (handleEvent_label_fallback evt this Hf), Hp.
  cbn [fst snd]. rewrite <- show_calls.
  flags this. repeat split.
Qed.

Lemma rollout_while_pressed_shows_over_witness :
  fallback rollout = true
  /\ _isPressed (sample_helper true true true) = true
  /\ handleEvent rollout (sample_helper true true true) sample_target =
       (sample_helper true true false,
        record (GotoAndStop (VStr "overTrue")) sample_target).
Proof.
  split; [reflexivity | split; [reflexivity |]].
  exact (proj1 (rollout_while_pressed_shows_over rollout
                  (sample_helper true true true) sample_target
                  eq_refl eq_refl)).
Defined.

(** C3.  A "mousedown" sets [_isPressed], flips [_checked] and shows the
    down label of the new checked value ([downTrueLabel] when the button
    was unchecked, [downFalseLabel] when it was checked); the "pressup"
    that follows clears [_isPressed], keeps the new checked value and
    shows its over label when hovered, its out label when not.  The
    labels are those [handleEvent] computes, and each reaches the target
    as the one seek call added to its log (none when the target lacks
    the method). *)
Theorem mousedown_then_pressup (this : helper) (t : displayObject) :
  let this1 := set_checked (negb (_checked this)) (set_isPressed true this) in
  let t1 := show this (down_label this1) t in
  let this2 := set_isPressed false this1 in
  let down := if _checked this then downFalseLabel this else downTrueLabel this in
  let up :=
    if _isOver this
    then (if _checked this then overFalseLabel this else overTrueLabel this)
    else (if _checked this then outFalseLabel this else outTrueLabel this) in
  let after_down := handleEvent mousedown this t in
  let after_up := handleEvent pressup (fst after_down) (snd after_down) in
  handleEvent mousedown this t = (this1, t1)
  /\ down_label this1 =
       (if _checked this then downFalseLabel this else downTrueLabel this)
  /\ handleEvent pressup this1 t1 =
       (this2, show this (if _isOver this then over_label this2
                          else out_label this2) t1)
  /\ _checked this2 = negb (_checked this)
  /\ _isPressed this2 = false
  /\ handleEvent_label mousedown this = (fst after_down, down)
  /\ _isPressed (fst after_down) = true
  /\ _checked (fst after_down) = negb (_checked this)
  /\ _isOver (fst after_down) = _isOver this
  /\ calls (snd after_down) =
       calls t ++ (if can_seek this t then [seek_call this down] else [])
  /\ handleEvent_label pressup (fst after_down) = (fst after_up, up)
  /\ _isPressed (fst after_up) = false
  /\ _checked (fst after_up) = negb (_checked this)
  /\ _isOver (fst after_up) = _isOver this
  /\ calls (snd after_up) =
       calls t ++ (if can_seek this t
                   then [seek_call this down; seek_call this up] else []).
Proof.
  cbv zeta.
  assert (E1 : handleEvent mousedown this t =
               (set_checked (negb (_checked this)) (set_isPressed true this),
                show this (if _checked this then downFalseLabel this
                           else downTrueLabel this) t)).
  { flags this. unfold handleEvent. destruct checked; reflexivity. }
  assert (E2 : forall u,
             handleEvent pressup
               (set_checked (negb (_checked this)) (set_isPressed true this)) u =
             (set_isPressed false
                (set_checked (negb (_checked this)) (set_isPressed true this)),
              show this
                (if _isOver this
                 then (if _checked this then overFalseLabel this
                       else overTrueLabel this)
                 else (if _checked this then outFalseLabel this
                       else outTrueLabel this)) u)).
  { intros u. flags this. unfold handleEvent. destruct checked, over; reflexivity. }
  assert (S : forall l u, can_seek this (show this l u) = can_seek this u).
  { intros l u. unfold can_seek, show, guarded_gotoAndPlay, guarded_gotoAndStop.
    destruct u as [lis unl gp gs mc cu ae ha pa rs rs' cs]. cbn.
    destruct (truthy (play this)); [destruct gp | destruct gs]; reflexivity. }
  assert (C1 : calls (snd (handleEvent mousedown this t)) =
               calls t ++ (if can_seek this t
                           then [seek_call this (if _checked this
                                                 then downFalseLabel this
                                                 else downTrueLabel this)]
                           else [])).
  { rewrite E1. cbn [snd]. apply show_calls. }
  assert (C2 : calls (snd (handleEvent pressup (fst (handleEvent mousedown this t))
                                       (snd (handleEvent mousedown this t)))) =
               calls t ++ (if can_seek this t
                           then [seek_call this (if _checked this
                                                 then downFalseLabel this
                                                 else downTrueLabel this);
                                 seek_call this
                                   (if _isOver this
                                    then (if _checked this then overFalseLabel this
                                          else overTrueLabel this)
                                    else (if _checked this then outFalseLabel this
                                          else outTrueLabel this))]
                           else [])).
  { rewrite E1. cbn [fst snd]. rewrite E2. cbn [snd].
    rewrite !show_calls. unfold emitted. rewrite S.
    destruct (can_seek this t); cbn; now rewrite <- ?app_assoc, ?app_nil_r. }
  repeat match goal with |- _ /\ _ => split end;
    try exact C1; try exact C2;
    rewrite ?E1; cbn [fst snd]; rewrite ?E2; cbn [fst snd];
    flags this; unfold handleEvent, down_label, over_label, out_label;
    destruct checked, over; reflexivity.
Qed.

(** Over, press, out, release on an unchecked button: the labels shown
    are "overFalse", "downTrue", "overTrue" and "outTrue", and the button
    ends checked. *)
Example over_press_out_release :
  deliver [rollover; mousedown; rollout; pressup]
          (sample_helper false false false) sample_target
  = (sample_helper true false false,
     mkDisplayObject true true true true VUndefined VUndefined VUndefined
       NoHitArea (VBool true) (Some movieclip_reset) None
       [GotoAndStop (VStr "overFalse"); GotoAndStop (VStr "downTrue");
        GotoAndStop (VStr "overTrue"); GotoAndStop (VStr "outTrue")]).
Proof. reflexivity. Qed.

(** ** getValue and setValue *)

(** C4.  [setValue val] writes [val] to [_checked] and hands the target
    one label, which depends on [val], [_isPressed] and [_isOver] alone,
    by pressed > hovered > idle; [_isPressed], [_isOver] and [_enabled]
    keep their values, and the target receives nothing but that one
    guarded seek call: no [addEventListener], no [removeEventListener]. *)
Theorem setValue_refreshes_display (val : bool) (this : helper) (t : displayObject) :
  let label := label_for this val (_isPressed this) (_isOver this) in
  setValue val this t = (set_checked val this, show this label t)
  /\ _isPressed (fst (setValue val this t)) = _isPressed this
  /\ _isOver (fst (setValue val this t)) = _isOver this
  /\ _enabled (fst (setValue val this t)) = _enabled this
  /\ calls (snd (setValue val this t)) = calls t ++ emitted this label t
  /\ length (emitted this label t) <= 1
  /\ filter is_subscription (calls (snd (setValue val this t)))
     = filter is_subscription (calls t).
Proof.
  cbv zeta.
  assert (E : setValue val this t =
              (set_checked val this,
               show this (label_for this val (_isPressed this) (_isOver this)) t)).
  { flags this. unfold setValue, label_for, priority_label.
    destruct val, pressed, over; reflexivity. }
  rewrite E. cbn [fst snd]. rewrite show_calls.
  repeat split; try (flags this; reflexivity).
  - apply emitted_length.
  - rewrite filter_app, emitted_no_subscription. apply app_nil_r.
Qed.

(** C10.  [getValue] after [setValue val] gives [val], whatever the
    flags of the helper were. *)
Theorem getValue_setValue (val : bool) (this : helper) (t : displayObject) :
  getValue (fst (setValue val this t)) = val.
Proof.
  unfold setValue, getValue.
  destruct (setValue_label val this) as [this' label] eqn:E. cbn.
  unfold setValue_label in E. flags this.
  destruct val, pressed, over; inversion E; reflexivity.
Qed.

(** ** Enabling and disabling *)

Lemma setEnabled_current_value (this : helper) (o : displayObject) :
  setEnabled (_enabled this) this o = Done (this, o).
Proof. unfold setEnabled. now rewrite Bool.eqb_reflx. Qed.

Lemma setEnabled_true_when_disabled (this : helper) (o : displayObject) :
  _enabled this = false ->
  addEventListener o = true ->
  setEnabled true this o = Done (set_enabled true this, wrapped (subscribed o)).
Proof.
  intros He Ha. unfold setEnabled. rewrite He. cbn [Bool.eqb].
  unfold call_addEventListener, wrapped, subscribed.
  destruct o; cbn in *; subst; reflexivity.
Qed.

Lemma calls_wrapped_subscribed (o : displayObject) :
  calls (wrapped (subscribed o)) = calls o ++ map AddEventListener event_names.
Proof.
  unfold wrapped, subscribed. destruct o as [a r gp gs mc cu ae ha pa rs rs' cs].
  destruct rs; cbn; now rewrite <- !app_assoc.
Qed.

(** C5.  Setting [enabled] to the value it has does nothing: the helper
    and the target come back as they were.  So on a disabled helper
    another [enabled = false] removes no listener, and of two
    [enabled = true] in a row the first subscribes the four events, sets
    the cursor and exchanges the reset slots, and the second adds
    nothing: four [addEventListener] calls in all, the target's own
    reset still in [__reset]. *)
Theorem setEnabled_same_value_noop (this : helper) (o : displayObject) :
  (forall v : bool, _enabled this = v -> setEnabled v this o = Done (this, o))
  /\ (_enabled this = false ->
      addEventListener o = true ->
      exists (this1 : helper) (o1 : displayObject),
        setEnabled true this o = Done (this1, o1)
        /\ setEnabled true this1 o1 = Done (this1, o1)
        /\ calls o1 = calls o ++ map AddEventListener event_names
        /\ cursor o1 = VStr "pointer"
        /\ match _reset o with
           | Some r => _reset o1 = Some Injected /\ __reset o1 = Some r
           | None => _reset o1 = None /\ __reset o1 = __reset o
           end).
Proof.
  split.
  - intros v <-. apply setEnabled_current_value.
  - intros He Ha.
    exists (set_enabled true this), (wrapped (subscribed o)).
    split; [now apply setEnabled_true_when_disabled |].
    split; [apply (setEnabled_current_value (set_enabled true this)) |].
    split; [apply calls_wrapped_subscribed |].
    unfold wrapped, subscribed.
    destruct o as [a r gp gs mc cu ae ha pa rs rs' cs].
    destruct rs; cbn; repeat split.
Qed.

Lemma setEnabled_same_value_noop_witness :
  setEnabled false (set_enabled false (sample_helper false false false))
             sample_target
    = Done (set_enabled false (sample_helper false false false), sample_target)
  /\ exists (this1 : helper) (o1 : displayObject),
       setEnabled true (set_enabled false (sample_helper false false false))
                  sample_target = Done (this1, o1)
       /\ setEnabled true this1 o1 = Done (this1, o1)
       /\ calls o1 = [AddEventListener "rollover"; AddEventListener "rollout";
                      AddEventListener "mousedown"; AddEventListener "pressup"].
Proof.
  destruct (setEnabled_same_value_noop
              (set_enabled false (sample_helper false false false)) sample_target)
    as [Hsame Htwice].
  split; [exact (Hsame false eq_refl) |].
  destruct (Htwice eq_refl eq_refl) as (this1 & o1 & H1 & H2 & H3 & _).
  exists this1, o1. repeat split; assumption.
Defined.

(** ** Construction *)

Lemma or_default_spec (x : value) (d : string) :
  default_or_kept x d (or_default x d).
Proof.
  unfold default_or_kept, omitted, or_default.
  destruct x; cbn; split; intros H; try reflexivity;
    try (destruct H; discriminate); exfalso; apply H; auto.
Qed.

(** On a target that has [addEventListener] the constructor runs to its
    end and throws nothing. *)
Lemma constructor_live (target : displayObject)
    (a1 a2 a3 a4 a5 a6 pl : value) (hitArea : hitarg) (hitLabel : value) :
  addEventListener target = true ->
  RadioButtonHelper target a1 a2 a3 a4 a5 a6 pl hitArea hitLabel =
    Done (Live (built a1 a2 a3 a4 a5 a6 pl),
          fst (with_hitArea hitArea hitLabel
                 (set_up (built a1 a2 a3 a4 a5 a6 pl) target)),
          snd (with_hitArea hitArea hitLabel
                 (set_up (built a1 a2 a3 a4 a5 a6 pl) target))).
Proof.
  intros Ha. unfold RadioButtonHelper. rewrite Ha. cbn [negb].
  rewrite setEnabled_true_when_disabled;
    [| reflexivity | destruct target; exact Ha].
  cbn [bind]. unfold handleEvent.
  rewrite handleEvent_label_fallback by reflexivity.
  cbn [set_enabled set_isOver _isPressed out_label over_label _checked
       overFalseLabel outFalseLabel downFalseLabel overTrueLabel outTrueLabel
       downTrueLabel play _isOver _enabled].
  unfold set_up, built, with_hitArea. cbn [outFalseLabel].
  destruct hitArea; reflexivity.
Qed.

(** The constructor throws on no target. *)
Lemma constructor_never_throws (target : displayObject)
    (a1 a2 a3 a4 a5 a6 pl : value) (hitArea : hitarg) (hitLabel : value) :
  exists (i : instance) (t : displayObject) (hit : hitarg),
    RadioButtonHelper target a1 a2 a3 a4 a5 a6 pl hitArea hitLabel
      = Done (i, t, hit).
Proof.
  destruct (addEventListener target) eqn:Ha.
  - do 3 eexists. apply constructor_live. exact Ha.
  - do 3 eexists. unfold RadioButtonHelper. rewrite Ha. reflexivity.
Qed.

(** C6.  Each of the six label properties holds its fixed string when
    the argument was [null] or [undefined], and the argument itself in
    every other case, the empty string and 0 included. *)
Theorem constructor_label_defaults (target : displayObject)
    (outFalse overFalse downFalse outTrue overTrue downTrue play : value)
    (hitArea : hitarg) (hitLabel : value) :
  addEventListener target = true ->
  exists (this : helper) (t : displayObject) (hit : hitarg),
    RadioButtonHelper target outFalse overFalse downFalse
                      outTrue overTrue downTrue play hitArea hitLabel
      = Done (Live this, t, hit)
    /\ default_or_kept outFalse "outFalse" (outFalseLabel this)
    /\ default_or_kept overFalse "overFalse" (overFalseLabel this)
    /\ default_or_kept downFalse "downFalse" (downFalseLabel this)
    /\ default_or_kept outTrue "outTrue" (outTrueLabel this)
    /\ default_or_kept overTrue "overTrue" (overTrueLabel this)
    /\ default_or_kept downTrue "downTrue" (downTrueLabel this).
Proof.
  intros Ha. do 3 eexists.
  split; [apply constructor_live; exact Ha |].
  cbn. repeat split; apply or_default_spec.
Qed.

Lemma constructor_label_defaults_witness :
  addEventListener sample_target = true
  /\ exists (this : helper) (t : displayObject) (hit : hitarg),
       RadioButtonHelper sample_target (VStr EmptyString) (VNum 0) VNull
                         VUndefined (VStr "over") (VNum 7)
                         VUndefined HitOmitted VUndefined
         = Done (Live this, t, hit)
       /\ outFalseLabel this = VStr EmptyString
       /\ overFalseLabel this = VNum 0
       /\ downFalseLabel this = VStr "downFalse"
       /\ outTrueLabel this = VStr "outTrue"
       /\ overTrueLabel this = VStr "over"
       /\ downTrueLabel this = VNum 7.
Proof.
  split; [reflexivity |].
  destruct (constructor_label_defaults sample_target (VStr EmptyString) (VNum 0) VNull
              VUndefined (VStr "over") (VNum 7) VUndefined HitOmitted VUndefined
              eq_refl)
    as (this & t & hit & E & _).
  exists this, t, hit. split; [exact E |].
  cbv in E. injection E as <- _ _. repeat split.
Defined.

Lemma eq_null_not_truthy (v : value) : eq_null v = true -> truthy v = false.
Proof. destruct v; cbn; congruence. Qed.

Lemma eq_null_or_default (v : value) (d : string) :
  eq_null v = true -> or_default v d = VStr d.
Proof. unfold or_default. now intros ->. Qed.

Lemma calls_set_up (this : helper) (target : displayObject) :
  calls (set_up this target) =
    calls target ++ map AddEventListener event_names
      ++ emitted this (outFalseLabel this) target.
Proof.
  unfold set_up. rewrite show_calls, calls_wrapped_subscribed.
  rewrite <- app_assoc. do 2 f_equal.
  unfold emitted, can_seek, wrapped, subscribed.
  destruct target as [a r gp gs mc cu ae ha pa rs rs' cs].
  destruct rs; reflexivity.
Qed.

Lemma calls_with_hitArea_no_label
    (hitArea : hitarg) (hitLabel : value) (target : displayObject) :
  truthy hitLabel = false ->
  calls (fst (with_hitArea hitArea hitLabel target)) = calls target.
Proof.
  intros H. unfold with_hitArea. rewrite H.
  destruct hitArea; destruct target; reflexivity.
Qed.

Lemma gotoAndStop_set_up (this : helper) (target : displayObject) :
  gotoAndStop (set_up this target) = gotoAndStop target.
Proof.
  unfold set_up, show, wrapped, subscribed, guarded_gotoAndPlay, guarded_gotoAndStop.
  destruct target as [lis unl gp gs mc cu ae ha pa rs rs' cs]. cbn.
  destruct (truthy (play this)), gp, gs, rs; reflexivity.
Qed.

Lemma calls_with_hitArea
    (hitArea : hitarg) (hitLabel : value) (target : displayObject) :
  calls (fst (with_hitArea hitArea hitLabel target)) =
    calls target
      ++ (if hit_label_on_target hitArea hitLabel && gotoAndStop target
          then [GotoAndStop hitLabel] else []).
Proof.
  unfold with_hitArea, hit_label_on_target, guarded_gotoAndStop.
  destruct target as [lis unl gp gs mc cu ae ha pa rs rs' cs].
  destruct hitArea; cbn; try (now rewrite app_nil_r).
  destruct (truthy hitLabel), gs; cbn; try reflexivity; now rewrite app_nil_r.
Qed.

(** C7, as stated, fails.  With the six labels omitted and the target
    given as its own hit area with the hit label "hit", the target
    receives two seek calls from the constructor, to "outFalse" and then
    to "hit", not one. *)
Lemma constructor_own_hit_area_seeks_twice :
  addEventListener sample_target = true
  /\ (exists (this : helper) (t : displayObject),
        RadioButtonHelper sample_target VUndefined VUndefined VUndefined
                          VUndefined VUndefined VUndefined VUndefined
                          HitTarget (VStr "hit")
          = Done (Live this, t, HitTarget)
        /\ filter is_seek (calls t)
           = [GotoAndStop (VStr "outFalse"); GotoAndStop (VStr "hit")])
  /\ ~ (forall (target : displayObject) (pl : value) (hit_arg : hitarg)
               (hitLabel : value) (i : instance) (t : displayObject) (hit : hitarg),
          addEventListener target = true ->
          RadioButtonHelper target VUndefined VUndefined VUndefined
                            VUndefined VUndefined VUndefined pl hit_arg hitLabel
            = Done (i, t, hit) ->
          exists c : call,
            filter is_seek (calls t) = filter is_seek (calls target) ++ [c]).
Proof.
  split; [reflexivity |].
  split; [do 2 eexists; split; reflexivity |].
  intros H.
  destruct (H sample_target VUndefined HitTarget (VStr "hit") _ _ _ eq_refl eq_refl)
    as [c Hc].
  discriminate Hc.
Qed.

(** C7, amended.  With the six labels omitted, constructing a helper on
    a target that has [addEventListener] subscribes the four events and
    runs the closing seek of [handleEvent] once, with "outFalse": the
    target receives that one [gotoAndStop] (or [gotoAndPlay], by [play])
    when it has the method.  It is the only seek call the target
    receives unless the target is given as its own hit area with a
    truthy hit label: then the [gotoAndStop] to the hit label follows
    it on the target. *)
Theorem constructor_shows_outFalse (target : displayObject)
    (outFalse overFalse downFalse outTrue overTrue downTrue play : value)
    (hitArea : hitarg) (hitLabel : value) :
  addEventListener target = true ->
  forallb eq_null
    [outFalse; overFalse; downFalse; outTrue; overTrue; downTrue] = true ->
  exists (this : helper) (t : displayObject) (hit : hitarg),
    RadioButtonHelper target outFalse overFalse downFalse
                      outTrue overTrue downTrue play hitArea hitLabel
      = Done (Live this, t, hit)
    /\ calls t =
         calls target ++ map AddEventListener event_names
           ++ (if can_seek this target
               then [seek_call this (VStr "outFalse")] else [])
           ++ (if hit_label_on_target hitArea hitLabel && gotoAndStop target
               then [GotoAndStop hitLabel] else [])
    /\ filter is_seek (calls t) =
         filter is_seek (calls target)
           ++ (if can_seek this target
               then [seek_call this (VStr "outFalse")] else [])
           ++ (if hit_label_on_target hitArea hitLabel && gotoAndStop target
               then [GotoAndStop hitLabel] else [])
    /\ (hit_label_on_target hitArea hitLabel = false ->
        calls t =
          calls target ++ map AddEventListener event_names
            ++ (if can_seek this target
                then [seek_call this (VStr "outFalse")] else [])
        /\ filter is_seek (calls t) =
             filter is_seek (calls target)
               ++ (if can_seek this target
                   then [seek_call this (VStr "outFalse")] else [])).
Proof.
  intros Ha Hd. cbn [forallb] in Hd.
  repeat (apply andb_prop in Hd; destruct Hd as [? Hd]).
  rewrite constructor_live by exact Ha.
  do 3 eexists. split; [reflexivity |].
  cbn [fst snd].
  rewrite calls_with_hitArea, gotoAndStop_set_up, calls_set_up.
  assert (E : outFalseLabel
                (built outFalse overFalse downFalse outTrue overTrue downTrue play)
              = VStr "outFalse") by now apply eq_null_or_default.
  rewrite E. unfold emitted.
  set (one := if can_seek _ target then [seek_call _ (VStr "outFalse")] else []).
  set (two := if hit_label_on_target hitArea hitLabel && gotoAndStop target
              then [GotoAndStop hitLabel] else []).
  assert (F1 : filter is_seek one = one).
  { unfold one, seek_call.
    destruct (can_seek _ target); [destruct (truthy _) |]; reflexivity. }
  assert (F2 : filter is_seek two = two).
  { unfold two. destruct (_ && _); reflexivity. }
  assert (S : filter is_seek
                ((calls target ++ map AddEventListener event_names ++ one) ++ two)
              = filter is_seek (calls target) ++ one ++ two).
  { rewrite !filter_app, F1, F2. cbn. now rewrite <- app_assoc. }
  split; [now rewrite <- !app_assoc |].
  split; [exact S |].
  intros Hh. unfold two in *. rewrite Hh in *. cbn [andb] in *.
  rewrite !app_nil_r in *. split; [reflexivity | exact S].
Qed.

Lemma constructor_shows_outFalse_witness :
  addEventListener sample_target = true
  /\ exists (this : helper) (t : displayObject) (hit : hitarg),
       RadioButtonHelper sample_target VUndefined VUndefined VUndefined
                         VUndefined VUndefined VUndefined VUndefined
                         (HitObject shape_target) (VStr "hit")
         = Done (Live this, t, hit)
       /\ calls t = [AddEventListener "rollover"; AddEventListener "rollout";
                     AddEventListener "mousedown"; AddEventListener "pressup";
                     GotoAndStop (VStr "outFalse")]
       /\ filter is_seek (calls t) = [GotoAndStop (VStr "outFalse")].
Proof.
  split; [reflexivity |].
  destruct (constructor_shows_outFalse sample_target VUndefined VUndefined
              VUndefined VUndefined VUndefined VUndefined VUndefined
              (HitObject shape_target) (VStr "hit") eq_refl eq_refl)
    as (this & t & hit & E & _ & _ & Hone).
  destruct (Hone eq_refl) as [Hc Hs].
  exists this, t, hit. split; [exact E |].
  cbv in E. injection E as <- <- _. split; [exact Hc | exact Hs].
Defined.

(** On a display object without a timeline the guard of the seek call
    skips it: the constructor subscribes the events and calls nothing
    else. *)
Example constructor_on_shape :
  exists (this : helper) (t : displayObject),
    RadioButtonHelper shape_target VUndefined VUndefined VUndefined
                      VUndefined VUndefined VUndefined VUndefined
                      HitOmitted VUndefined
      = Done (Live this, t, HitOmitted)
    /\ calls t = map AddEventListener event_names.
Proof. do 2 eexists. split; reflexivity. Qed.

(** When the target is its own hit area and a hit label is given, as in
    the example of the class comment, the constructor sends the target a
    second [gotoAndStop], to the hit label. *)
Example constructor_hit_label_on_target :
  exists (this : helper) (t : displayObject),
    RadioButtonHelper sample_target VUndefined VUndefined VUndefined
                      VUndefined VUndefined VUndefined (VBool false)
                      HitTarget (VStr "hit")
      = Done (Live this, t, HitTarget)
    /\ filter is_seek (calls t)
       = [GotoAndStop (VStr "outFalse"); GotoAndStop (VStr "hit")].
Proof. do 2 eexists. split; reflexivity. Qed.

(** C8.  On a target without [addEventListener] the constructor returns
    at once and throws nothing: the new object has no property, and the
    target and the hit object are as they were (no listener, no cursor,
    no hit area, no seek call). *)
Theorem constructor_inert_without_events (target : displayObject)
    (outFalse overFalse downFalse outTrue overTrue downTrue play : value)
    (hitArea : hitarg) (hitLabel : value) :
  addEventListener target = false ->
  RadioButtonHelper target outFalse overFalse downFalse
                    outTrue overTrue downTrue play hitArea hitLabel
    = Done (Inert, target, hitArea).
Proof. intros H. unfold RadioButtonHelper. now rewrite H. Qed.

Lemma constructor_inert_without_events_witness :
  addEventListener plain_object = false
  /\ RadioButtonHelper plain_object VUndefined VUndefined VUndefined
                       VUndefined VUndefined VUndefined (VBool true)
                       (HitObject sample_target) (VStr "hit")
     = Done (Inert, plain_object, HitObject sample_target).
Proof.
  split; [reflexivity |].
  apply (constructor_inert_without_events plain_object); reflexivity.
Defined.

(** ** The injected reset *)

(** [p._reset] on an object whose [__reset] is its own reset: the reset
    runs, and [paused] comes back to what it was. *)
Lemma prototype_reset_keeps_paused
    (fuel : nat) (o : displayObject) (f : value -> value) :
  __reset o = Some (Original f) ->
  prototype_reset fuel o =
    Done (set_paused (paused o)
            (set_paused (f (paused o)) (record OriginalReset o))).
Proof.
  intros H. unfold prototype_reset. cbn [call_hook]. rewrite H.
  destruct fuel; reflexivity.
Qed.

(** C9.  Once [enabled = true] has put the helper's [_reset] in place of
    the target's own, a call of [target._reset()] runs the target's own
    reset and leaves [paused] at the value it had before the call,
    whatever that value and whatever the own reset does to it. *)
Theorem injected_reset_preserves_paused
    (fuel : nat) (this : helper) (o : displayObject) (f : value -> value) :
  _enabled this = false ->
  addEventListener o = true ->
  _reset o = Some (Original f) ->
  exists (this1 : helper) (o1 o2 : displayObject),
    setEnabled true this o = Done (this1, o1)
    /\ _reset o1 = Some Injected
    /\ __reset o1 = Some (Original f)
    /\ paused o1 = paused o
    /\ call_reset (S fuel) o1 = Done o2
    /\ calls o2 = calls o1 ++ [OriginalReset]
    /\ paused o2 = paused o1.
Proof.
  intros He Ha Hr.
  exists (set_enabled true this), (wrapped (subscribed o)).
  eexists. split; [now apply setEnabled_true_when_disabled |].
  assert (W : wrapped (subscribed o)
              = set_resets (Some Injected) (Some (Original f)) (subscribed o)).
  { unfold wrapped.
    replace (_reset (subscribed o)) with (_reset o) by (destruct o; reflexivity).
    now rewrite Hr. }
  rewrite W. cbn [_reset __reset set_resets paused].
  do 3 (split; [reflexivity |]).
  unfold call_reset. cbn [_reset set_resets].
  change (call_hook (S fuel) Injected ?x) with (prototype_reset fuel x).
  rewrite (prototype_reset_keeps_paused fuel _ f) by reflexivity.
  split; [reflexivity |]. split; reflexivity.
Qed.

Lemma injected_reset_preserves_paused_witness :
  _enabled (set_enabled false (sample_helper false false false)) = false
  /\ addEventListener sample_target = true
  /\ _reset sample_target = Some movieclip_reset
  /\ exists (this1 : helper) (o1 o2 : displayObject),
       setEnabled true (set_enabled false (sample_helper false false false))
                  sample_target = Done (this1, o1)
       /\ paused o1 = VBool true
       /\ call_reset 1 o1 = Done o2
       /\ paused o2 = VBool true.
Proof.
  do 3 (split; [reflexivity |]).
  destruct (injected_reset_preserves_paused 0
              (set_enabled false (sample_helper false false false))
              sample_target (fun _ => VBool false) eq_refl eq_refl eq_refl)
    as (this1 & o1 & o2 & E & _ & _ & Hp & Hc & _ & Hq).
  exists this1, o1, o2.
  split; [exact E |]. split; [exact Hp |]. split; [exact Hc |].
  now rewrite Hq.
Defined.

(** Without the injected reset, the same call on the same target clears
    [paused]: the wrapper is what keeps the flag. *)
Example own_reset_clears_paused :
  exists o : displayObject,
    call_reset 0 sample_target = Done o /\ paused o = VBool false.
Proof. eexists. split; reflexivity. Qed.

(** ** Further properties of setEnabled *)

Lemma setEnabled_false_when_enabled (this : helper) (o : displayObject) :
  _enabled this = true ->
  removeEventListener o = true ->
  setEnabled false this o = Done (set_enabled false this, unwrapped (unsubscribed o)).
Proof.
  intros He Hr. unfold setEnabled. rewrite He. cbn [Bool.eqb].
  unfold call_removeEventListener, unwrapped, unsubscribed.
  destruct o; cbn in *; subst; reflexivity.
Qed.

Lemma setEnabled_without_method (v : bool) (this : helper) (o : displayObject) :
  _enabled this = negb v ->
  listener_method v o = false ->
  setEnabled v this o = TypeError.
Proof.
  intros He Hm. unfold setEnabled. rewrite He.
  unfold call_addEventListener, call_removeEventListener.
  destruct o; destruct v; cbn in *; subst; reflexivity.
Qed.

(** X1.  [setEnabled] returns unless it has a listener to add or remove and
    the target lacks the method for it: then, and only then, it throws
    a TypeError. *)
Theorem setEnabled_throws_only_without_method
    (v : bool) (this : helper) (o : displayObject) :
  if Bool.eqb v (_enabled this) || listener_method v o
  then exists r : helper * displayObject, setEnabled v this o = Done r
  else setEnabled v this o = TypeError.
Proof.
  destruct (Bool.eqb v (_enabled this)) eqn:E.
  - cbn [orb]. apply Bool.eqb_prop in E. subst v.
    eexists. apply setEnabled_current_value.
  - cbn [orb].
    assert (He : _enabled this = negb v)
      by (destruct v, (_enabled this); cbn in *; congruence).
    destruct (listener_method v o) eqn:Hm.
    + destruct v; cbn in He, Hm; eexists.
      * apply setEnabled_true_when_disabled; assumption.
      * apply setEnabled_false_when_enabled; assumption.
    + now apply setEnabled_without_method.
Qed.

Lemma filter_seek_subscribed (o : displayObject) :
  filter is_seek (calls (wrapped (subscribed o))) = filter is_seek (calls o).
Proof.
  rewrite calls_wrapped_subscribed, filter_app. cbn. apply app_nil_r.
Qed.

Lemma calls_unwrapped_unsubscribed (o : displayObject) :
  calls (unwrapped (unsubscribed o)) = calls o ++ map RemoveEventListener event_names.
Proof.
  unfold unwrapped, unsubscribed. destruct o as [a r gp gs mc cu ae ha pa rs rs' cs].
  destruct rs'; cbn; now rewrite <- !app_assoc.
Qed.

(** X2.  Whatever [setEnabled] returns, the helper differs from the one it
    started from by [_enabled] alone, which now reads as the value
    given, and the target keeps [paused], [mouseChildren], [hitArea] and
    [actionsEnabled] and receives no seek call. *)
Theorem setEnabled_frame (v : bool) (this this1 : helper) (o o1 : displayObject) :
  setEnabled v this o = Done (this1, o1) ->
  getEnabled this1 = v
  /\ this1 = set_enabled v this
  /\ paused o1 = paused o
  /\ mouseChildren o1 = mouseChildren o
  /\ hitArea o1 = hitArea o
  /\ actionsEnabled o1 = actionsEnabled o
  /\ filter is_seek (calls o1) = filter is_seek (calls o).
Proof.
  intros H.
  destruct (Bool.eqb v (_enabled this)) eqn:E.
  - apply Bool.eqb_prop in E. subst v.
    rewrite setEnabled_current_value in H. injection H as <- <-.
    flags this. repeat split.
  - assert (He : _enabled this = negb v)
      by (destruct v, (_enabled this); cbn in *; congruence).
    destruct (listener_method v o) eqn:Hm.
    + destruct v; cbn in He, Hm.
      * rewrite setEnabled_true_when_disabled in H by assumption.
        injection H as <- <-.
        split; [reflexivity |]. split; [reflexivity |].
        split; [| split; [| split; [| split]]];
          try (unfold wrapped, subscribed; destruct o as [a r gp gs mc cu ae ha pa rs rs' cs];
               destruct rs; reflexivity).
        apply filter_seek_subscribed.
      * rewrite setEnabled_false_when_enabled in H by assumption.
        injection H as <- <-.
        split; [reflexivity |]. split; [reflexivity |].
        split; [| split; [| split; [| split]]];
          try (unfold unwrapped, unsubscribed;
               destruct o as [a r gp gs mc cu ae ha pa rs rs' cs];
               destruct rs'; reflexivity).
        rewrite calls_unwrapped_unsubscribed, filter_app. cbn. apply app_nil_r.
    + rewrite setEnabled_without_method in H by assumption. discriminate.
Qed.

Lemma setEnabled_frame_witness :
  setEnabled false (sample_helper true false true) sample_target
    = Done (set_enabled false (sample_helper true false true),
            unwrapped (unsubscribed sample_target))
  /\ getEnabled (set_enabled false (sample_helper true false true)) = false
  /\ paused (unwrapped (unsubscribed sample_target)) = paused sample_target.
Proof.
  split; [reflexivity |].
  destruct (setEnabled_frame false (sample_helper true false true)
              (set_enabled false (sample_helper true false true))
              sample_target (unwrapped (unsubscribed sample_target)) eq_refl)
    as (H1 & _ & H2 & _).
  split; assumption.
Defined.

(** X3.  Enabling and then disabling gives the helper back as it was and the
    target with its reset function back in [_reset] and no [__reset];
    the cursor is [null], not what it was before, and the log holds
    the four [addEventListener] calls followed by the four matching
    [removeEventListener] calls.  The target must not carry a
    [__reset] without a [_reset] to start with. *)
Theorem enable_then_disable (this : helper) (o : displayObject) :
  _enabled this = false ->
  addEventListener o = true ->
  removeEventListener o = true ->
  (_reset o = None -> __reset o = None) ->
  exists (this1 : helper) (o1 o2 : displayObject),
    setEnabled true this o = Done (this1, o1)
    /\ setEnabled false this1 o1 = Done (this, o2)
    /\ _reset o2 = _reset o
    /\ __reset o2 = None
    /\ cursor o2 = VNull
    /\ paused o2 = paused o
    /\ calls o2 = calls o ++ map AddEventListener event_names
                    ++ map RemoveEventListener event_names.
Proof.
  intros He Ha Hr Hs.
  exists (set_enabled true this), (wrapped (subscribed o)),
         (unwrapped (unsubscribed (wrapped (subscribed o)))).
  split; [now apply setEnabled_true_when_disabled |].
  split.
  { rewrite setEnabled_false_when_enabled.
    - flags this. now subst.
    - reflexivity.
    - unfold wrapped, subscribed. destruct o as [a r gp gs mc cu ae ha pa rs rs' cs].
      destruct rs; exact Hr. }
  rewrite calls_unwrapped_unsubscribed, calls_wrapped_subscribed, <- app_assoc.
  unfold unwrapped, unsubscribed, wrapped, subscribed.
  destruct o as [a r gp gs mc cu ae ha pa rs rs' cs]. cbn in *.
  destruct rs; cbn.
  - repeat split.
  - rewrite (Hs eq_refl). cbn. repeat split.
Qed.

Lemma enable_then_disable_witness :
  exists (this1 : helper) (o1 o2 : displayObject),
    setEnabled true (set_enabled false (sample_helper true false false))
               (set_cursor (VStr "crosshair") sample_target) = Done (this1, o1)
    /\ setEnabled false this1 o1
       = Done (set_enabled false (sample_helper true false false), o2)
    /\ _reset o2 = Some movieclip_reset
    /\ __reset o2 = None
    /\ cursor o2 = VNull.
Proof.
  destruct (enable_then_disable
              (set_enabled false (sample_helper true false false))
              (set_cursor (VStr "crosshair") sample_target)
              eq_refl eq_refl eq_refl (fun _ => eq_refl))
    as (this1 & o1 & o2 & H1 & H2 & H3 & H4 & H5 & _).
  exists this1, o1, o2. repeat split; assumption.
Defined.

(** ** Two helpers on one target *)

Lemma injected_on_injected_overflows (fuel : nat) (o : displayObject) :
  __reset o = Some Injected ->
  call_hook fuel Injected o = StackOverflow.
Proof.
  intros H. induction fuel as [| fuel IH]; [reflexivity |].
  cbn [call_hook]. rewrite H, IH. reflexivity.
Qed.

(** X4.  When a second helper is enabled on a target that the first one
    already wrapped, both reset slots of the target hold the injected
    reset: the target's own reset is in neither, and a call of
    [target._reset()] recurses until the stack is exhausted, whatever
    the depth allowed. *)
Theorem second_helper_breaks_reset
    (h1 h2 : helper) (o : displayObject) (r : hook) :
  _enabled h1 = false ->
  _enabled h2 = false ->
  addEventListener o = true ->
  _reset o = Some r ->
  exists (h1' h2' : helper) (o1 o2 : displayObject),
    setEnabled true h1 o = Done (h1', o1)
    /\ setEnabled true h2 o1 = Done (h2', o2)
    /\ _reset o2 = Some Injected
    /\ __reset o2 = Some Injected
    /\ forall fuel : nat, call_reset fuel o2 = StackOverflow.
Proof.
  intros E1 E2 Ha Hr.
  exists (set_enabled true h1), (set_enabled true h2),
         (wrapped (subscribed o)), (wrapped (subscribed (wrapped (subscribed o)))).
  split; [now apply setEnabled_true_when_disabled |].
  assert (Ha1 : addEventListener (wrapped (subscribed o)) = true).
  { unfold wrapped, subscribed. destruct o as [a rm gp gs mc cu ae ha pa rs rs' cs].
    destruct rs; exact Ha. }
  split; [now apply setEnabled_true_when_disabled |].
  assert (W : _reset (wrapped (subscribed (wrapped (subscribed o)))) = Some Injected
              /\ __reset (wrapped (subscribed (wrapped (subscribed o)))) = Some Injected).
  { unfold wrapped, subscribed. destruct o as [a rm gp gs mc cu ae ha pa rs rs' cs].
    cbn in Hr. subst rs. split; reflexivity. }
  destruct W as [W1 W2]. split; [exact W1 |]. split; [exact W2 |].
  intros fuel. unfold call_reset. rewrite W1.
  now apply injected_on_injected_overflows.
Qed.

Lemma second_helper_breaks_reset_witness :
  exists (h1' h2' : helper) (o1 o2 : displayObject),
    setEnabled true (set_enabled false (sample_helper false false false))
               sample_target = Done (h1', o1)
    /\ setEnabled true (set_enabled false (sample_helper true false false)) o1
       = Done (h2', o2)
    /\ call_reset 1000 o2 = StackOverflow.
Proof.
  destruct (second_helper_breaks_reset
              (set_enabled false (sample_helper false false false))
              (set_enabled false (sample_helper true false false))
              sample_target movieclip_reset eq_refl eq_refl eq_refl eq_refl)
    as (h1' & h2' & o1 & o2 & H1 & H2 & _ & _ & H3).
  exists h1', h2', o1, o2. repeat split; [exact H1 | exact H2 | apply H3].
Defined.

(** X5.  Disabling the two helpers afterwards, in either order, does not
    bring the target's own reset back: [_reset] still holds the injected
    reset, [__reset] is gone, and [target._reset()] throws a TypeError. *)
Theorem two_helpers_lose_own_reset
    (h1 h2 : helper) (o : displayObject) (r : hook) :
  _enabled h1 = false ->
  _enabled h2 = false ->
  addEventListener o = true ->
  removeEventListener o = true ->
  _reset o = Some r ->
  exists (h1' h2' : helper) (o1 o2 o3 o4 o3' o4' : displayObject),
    setEnabled true h1 o = Done (h1', o1)
    /\ setEnabled true h2 o1 = Done (h2', o2)
    /\ setEnabled false h1' o2 = Done (h1, o3)
    /\ setEnabled false h2' o3 = Done (h2, o4)
    /\ setEnabled false h2' o2 = Done (h2, o3')
    /\ setEnabled false h1' o3' = Done (h1, o4')
    /\ _reset o4 = Some Injected /\ __reset o4 = None
    /\ _reset o4' = Some Injected /\ __reset o4' = None
    /\ forall fuel : nat,
         call_reset (S fuel) o4 = TypeError /\ call_reset (S fuel) o4' = TypeError.
Proof.
  intros E1 E2 Ha Hrm Hr.
  set (o1 := wrapped (subscribed o)).
  set (o2 := wrapped (subscribed o1)).
  set (o3 := unwrapped (unsubscribed o2)).
  set (o4 := unwrapped (unsubscribed o3)).
  exists (set_enabled true h1), (set_enabled true h2), o1, o2, o3, o4, o3, o4.
  assert (F : forall x, addEventListener (wrapped (subscribed x)) = addEventListener x
                        /\ removeEventListener (wrapped (subscribed x))
                           = removeEventListener x).
  { intros x. unfold wrapped, subscribed.
    destruct x as [a rm gp gs mc cu ae ha pa rs rs' cs]. destruct rs; split; reflexivity. }
  assert (G : forall x, removeEventListener (unwrapped (unsubscribed x))
                        = removeEventListener x).
  { intros x. unfold unwrapped, unsubscribed.
    destruct x as [a rm gp gs mc cu ae ha pa rs rs' cs]. destruct rs'; reflexivity. }
  assert (B1 : set_enabled false (set_enabled true h1) = h1) by (flags h1; now subst).
  assert (B2 : set_enabled false (set_enabled true h2) = h2) by (flags h2; now subst).
  assert (R2 : removeEventListener o2 = true).
  { unfold o2, o1. now rewrite !(proj2 (F _)). }
  assert (R3 : removeEventListener o3 = true) by (unfold o3; now rewrite G).
  split; [now apply setEnabled_true_when_disabled |].
  split; [apply setEnabled_true_when_disabled; [exact E2 | unfold o1; now rewrite (proj1 (F o))] |].
  split; [rewrite setEnabled_false_when_enabled, ?B1; auto |].
  split; [rewrite setEnabled_false_when_enabled, ?B2; auto |].
  split; [rewrite setEnabled_false_when_enabled, ?B2; auto |].
  split; [rewrite setEnabled_false_when_enabled, ?B1; auto |].
  assert (S4 : _reset o4 = Some Injected /\ __reset o4 = None).
  { unfold o4, o3, o2, o1, unwrapped, unsubscribed, wrapped, subscribed.
    destruct o as [a rm gp gs mc cu ae ha pa rs rs' cs].
    cbn in Hr. subst rs. split; reflexivity. }
  destruct S4 as [S4 S4'].
  repeat (split; [assumption |]).
  intros fuel. unfold call_reset. rewrite S4. cbn [call_hook]. rewrite S4'.
  split; reflexivity.
Qed.

Lemma two_helpers_lose_own_reset_witness :
  exists (h1' h2' : helper) (o1 o2 o3 o4 : displayObject),
    setEnabled true (set_enabled false (sample_helper false false false))
               sample_target = Done (h1', o1)
    /\ setEnabled true (set_enabled false (sample_helper true false false)) o1
       = Done (h2', o2)
    /\ setEnabled false h1' o2
       = Done (set_enabled false (sample_helper false false false), o3)
    /\ setEnabled false h2' o3
       = Done (set_enabled false (sample_helper true false false), o4)
    /\ _reset sample_target = Some movieclip_reset
    /\ _reset o4 = Some Injected
    /\ call_reset 1 o4 = TypeError.
Proof.
  destruct (two_helpers_lose_own_reset
              (set_enabled false (sample_helper false false false))
              (set_enabled false (sample_helper true false false))
              sample_target movieclip_reset
              eq_refl eq_refl eq_refl eq_refl eq_refl)
    as (h1' & h2' & o1 & o2 & o3 & o4 & o3' & o4'
        & H1 & H2 & H3 & H4 & _ & _ & H5 & _ & _ & _ & H6).
  exists h1', h2', o1, o2, o3, o4.
  repeat split; try assumption. apply (proj1 (H6 0)).
Defined.

(** ** Sequences of events *)

Lemma handleEvent_step (evt : event) (this : helper) (t : displayObject) :
  exists label : value,
    handleEvent evt this t = (fst (handleEvent evt this t), show this label t)
    /\ In label (six_labels this)
    /\ same_config this (fst (handleEvent evt this t))
    /\ _checked (fst (handleEvent evt this t)) = xorb (_checked this) (is_mousedown evt).
Proof.
  unfold handleEvent, handleEvent_label, is_mousedown, same_config, six_labels.
  destruct (eq_type (type evt) "mousedown");
    [| destruct (eq_type (type evt) "pressup");
       [| destruct (eq_type (type evt) "rollover")]];
    flags this; destruct checked, pressed, over; eexists; cbn;
      (split; [reflexivity | split; [auto 10 | split; [repeat split | reflexivity]]]).
Qed.

Lemma show_same_but_calls (this : helper) (label : value) (t : displayObject) :
  same_but_calls (show this label t) t.
Proof.
  unfold show, guarded_gotoAndPlay, guarded_gotoAndStop, same_but_calls.
  destruct t as [a r gp gs mc cu ae ha pa rs rs' cs]. cbn.
  destruct (truthy (play this)); [destruct gp | destruct gs]; cbn; repeat split.
Qed.

Lemma same_but_calls_trans (a b c : displayObject) :
  same_but_calls a b -> same_but_calls b c -> same_but_calls a c.
Proof. unfold same_but_calls. intuition congruence. Qed.

Lemma same_config_trans (a b c : helper) :
  same_config a b -> same_config b c -> same_config a c.
Proof. unfold same_config. intuition congruence. Qed.

Lemma can_seek_stable (a b : helper) (t u : displayObject) :
  same_config a b -> same_but_calls u t -> can_seek b u = can_seek a t.
Proof.
  unfold same_config, same_but_calls, can_seek. intros (_ & Hp & _) (_ & _ & H1 & H2 & _).
  now rewrite Hp, H1, H2.
Qed.

Lemma seek_call_stable (a b : helper) (labels : list value) :
  same_config a b -> map (seek_call b) labels = map (seek_call a) labels.
Proof.
  intros (_ & Hp & _). apply map_ext. intros l. unfold seek_call. now rewrite Hp.
Qed.

(** What a run of events leaves: a helper of the same configuration, a
    target that differs by its log alone, and in the log one seek call
    for each event (none when the target lacks the method), each to one
    of the six labels. *)
Lemma deliver_shape (evts : list event) (this : helper) (t : displayObject) :
  exists labels : list value,
    length labels = length evts
    /\ Forall (fun l => In l (six_labels this)) labels
    /\ same_config this (fst (deliver evts this t))
    /\ same_but_calls (snd (deliver evts this t)) t
    /\ calls (snd (deliver evts this t)) =
         calls t ++ (if can_seek this t then map (seek_call this) labels else []).
Proof.
  revert this t. induction evts as [| evt evts IH]; intros this t.
  - exists []. cbn. repeat split; try constructor.
    destruct (can_seek this t); now rewrite app_nil_r.
  - destruct (handleEvent_step evt this t) as (l & E & Hin & Hc & _).
    cbn [deliver]. rewrite E.
    set (this' := fst (handleEvent evt this t)) in *.
    destruct (IH this' (show this l t)) as (labels & Hlen & Hall & Hc' & Hs' & Hcalls).
    pose proof (show_same_but_calls this l t) as Hs.
    exists (l :: labels).
    split; [cbn; now rewrite Hlen |].
    split.
    { constructor; [exact Hin |].
      destruct Hc as (H6 & _). rewrite H6. exact Hall. }
    split; [eapply same_config_trans; eassumption |].
    split; [eapply same_but_calls_trans; eassumption |].
    rewrite Hcalls, show_calls, (can_seek_stable this this' t (show this l t) Hc Hs).
    rewrite (seek_call_stable this this' labels Hc).
    unfold emitted. destruct (can_seek this t); cbn [map].
    + now rewrite <- app_assoc.
    + now rewrite !app_nil_r.
Qed.

(** X6.  However many events the handler receives, the target gets one seek
    call for each and no other call when it has the method [play]
    selects, and no call at all when it has not; every label sent is
    one of the six labels of the helper. *)
Theorem deliver_one_seek_per_event
    (evts : list event) (this : helper) (t : displayObject) :
  exists labels : list value,
    length labels = length evts
    /\ Forall (fun l => In l (six_labels this)) labels
    /\ calls (snd (deliver evts this t)) =
         calls t ++ (if can_seek this t then map (seek_call this) labels else []).
Proof.
  destruct (deliver_shape evts this t) as (labels & H1 & H2 & _ & _ & H3).
  exists labels. auto.
Qed.

Lemma deliver_ignores_enabled
    (b : bool) (evts : list event) (this : helper) (t : displayObject) :
  deliver evts (set_enabled b this) t =
    (set_enabled b (fst (deliver evts this t)), snd (deliver evts this t)).
Proof.
  revert this t. induction evts as [| evt evts IH]; intros this t; [reflexivity |].
  cbn [deliver].
  assert (E : handleEvent evt (set_enabled b this) t =
              (set_enabled b (fst (handleEvent evt this t)),
               snd (handleEvent evt this t))).
  { unfold handleEvent, handleEvent_label.
    destruct (eq_type (type evt) "mousedown");
      [| destruct (eq_type (type evt) "pressup");
         [| destruct (eq_type (type evt) "rollover")]];
      flags this; destruct checked, pressed, over; reflexivity. }
  rewrite E. destruct (handleEvent evt this t) as [this' t']. cbn [fst snd].
  apply IH.
Qed.

Lemma seek_calls_no_subscription (this : helper) (labels : list value) :
  filter is_subscription (map (seek_call this) labels) = [].
Proof.
  induction labels as [| l ls IH]; [reflexivity |].
  cbn [map filter]. unfold seek_call at 1.
  destruct (truthy (play this)); exact IH.
Qed.

(** X7.  The handler reads and writes neither [_enabled], nor the labels,
    nor [play], and on the target it touches the log alone, where it
    adds no [addEventListener] and no [removeEventListener]; called on a
    disabled helper it does what it does on an enabled one. *)
Theorem deliver_frame (evts : list event) (this : helper) (t : displayObject) :
  same_config this (fst (deliver evts this t))
  /\ same_but_calls (snd (deliver evts this t)) t
  /\ filter is_subscription (calls (snd (deliver evts this t)))
     = filter is_subscription (calls t)
  /\ forall b : bool,
       deliver evts (set_enabled b this) t =
         (set_enabled b (fst (deliver evts this t)), snd (deliver evts this t)).
Proof.
  destruct (deliver_shape evts this t) as (labels & _ & _ & H1 & H2 & H3).
  split; [exact H1 |]. split; [exact H2 |].
  split; [| intros b; apply deliver_ignores_enabled].
  rewrite H3, filter_app.
  destruct (can_seek this t); [| apply app_nil_r].
  rewrite seek_calls_no_subscription. apply app_nil_r.
Qed.

(** X8.  After any run of events the value of the button is its value before
    the run, flipped once for each "mousedown" in the run: no other
    event changes it. *)
Theorem deliver_value_parity (evts : list event) (this : helper) (t : displayObject) :
  getValue (fst (deliver evts this t)) =
    xorb (getValue this) (Nat.odd (length (filter is_mousedown evts))).
Proof.
  unfold getValue. revert this t.
  induction evts as [| evt evts IH]; intros this t.
  - cbn. now rewrite xorb_false_r.
  - destruct (handleEvent_step evt this t) as (l & E & _ & _ & Hc).
    cbn [deliver filter]. rewrite E, IH, Hc.
    destruct (is_mousedown evt); cbn [length xorb].
    + rewrite Nat.odd_succ, <- Nat.negb_odd.
      destruct (_checked this), (Nat.odd (length (filter is_mousedown evts)));
        reflexivity.
    + now rewrite xorb_false_r.
Qed.

(** X9.  An event whose type the handler does not know (any string but the
    three it tests, or a type that is not a string) is handled as a
    "rollout". *)
Theorem unknown_event_is_rollout (evt : event) (this : helper) (t : displayObject) :
  fallback evt = true ->
  handleEvent evt this t = handleEvent rollout this t.
Proof.
  intros H. unfold handleEvent.
  now rewrite (handleEvent_label_fallback evt this H),
              (handleEvent_label_fallback rollout this fallback_rollout).
Qed.

Lemma unknown_event_is_rollout_witness :
  fallback (mkEvent (VStr "click")) = true
  /\ fallback (mkEvent (VNum 3)) = true
  /\ handleEvent (mkEvent (VStr "click")) (sample_helper true false true) sample_target
     = handleEvent rollout (sample_helper true false true) sample_target.
Proof.
  split; [reflexivity | split; [reflexivity |]].
  apply (unknown_event_is_rollout (mkEvent (VStr "click"))). reflexivity.
Defined.

(** ** Further properties of setValue *)

(** X10.  Of two [setValue] in a row the last one decides: the helper is as
    after the second alone, and the label of the second is the one it
    would show without the first.  [setValue] of the current value
    leaves the helper as it is. *)
Theorem setValue_last_wins (v1 v2 : bool) (this : helper) (t : displayObject) :
  fst (setValue v2 (fst (setValue v1 this t)) (snd (setValue v1 this t)))
    = fst (setValue v2 this t)
  /\ snd (setValue v2 (fst (setValue v1 this t)) (snd (setValue v1 this t)))
    = show this (label_for this v2 (_isPressed this) (_isOver this))
           (snd (setValue v1 this t))
  /\ fst (setValue (getValue this) this t) = this.
Proof.
  unfold setValue, setValue_label, getValue, label_for, priority_label.
  flags this. destruct v1, v2, pressed, over, checked; repeat split.
Qed.

(** ** Further properties of the constructor *)

Ltac open_target target :=
  destruct target as [lis unl gp gs mc cu ae ha pa rs rs' cs]; cbn in *.

(** X11.  On a target with [addEventListener] the constructor leaves an
    enabled, unchecked helper, neither pressed nor hovered, and a target
    with [mouseChildren] false, the pointer cursor, [paused] as it was,
    the reset slots exchanged when the target has a reset, and [hitArea]
    set when a hit area was given and left alone when none was. *)
Theorem constructor_post_state (target : displayObject)
    (a1 a2 a3 a4 a5 a6 pl : value) (hit_arg : hitarg) (hitLabel : value) :
  addEventListener target = true ->
  exists (this : helper) (t : displayObject) (hit : hitarg),
    RadioButtonHelper target a1 a2 a3 a4 a5 a6 pl hit_arg hitLabel
      = Done (Live this, t, hit)
    /\ getEnabled this = true
    /\ getValue this = false
    /\ _isPressed this = false
    /\ _isOver this = false
    /\ play this = pl
    /\ mouseChildren t = VBool false
    /\ cursor t = VStr "pointer"
    /\ paused t = paused target
    /\ hitArea t = match hit_arg with
                   | HitOmitted => hitArea target
                   | HitTarget => HitSelf
                   | HitObject _ => HitOther
                   end
    /\ match _reset target with
       | Some r => _reset t = Some Injected /\ __reset t = Some r
       | None => _reset t = None /\ __reset t = __reset target
       end.
Proof.
  intros Ha. do 3 eexists.
  split; [apply constructor_live; exact Ha |].
  do 5 (split; [reflexivity |]).
  unfold with_hitArea, set_up, show, wrapped, subscribed,
    guarded_gotoAndPlay, guarded_gotoAndStop.
  open_target target.
  destruct hit_arg, (truthy hitLabel), (truthy pl), gp, gs, rs; cbn; repeat split.
Qed.

Lemma constructor_post_state_witness :
  exists (this : helper) (t : displayObject) (hit : hitarg),
    RadioButtonHelper sample_target VUndefined VUndefined VUndefined
                      VUndefined VUndefined VUndefined (VBool true)
                      HitOmitted VUndefined
      = Done (Live this, t, hit)
    /\ getEnabled this = true
    /\ getValue this = false
    /\ cursor t = VStr "pointer"
    /\ _reset t = Some Injected
    /\ __reset t = Some movieclip_reset.
Proof.
  destruct (constructor_post_state sample_target VUndefined VUndefined VUndefined
              VUndefined VUndefined VUndefined (VBool true) HitOmitted VUndefined
              eq_refl)
    as (this & t & hit & E & H1 & H2 & _ & _ & _ & _ & H3 & _ & _ & H4 & H5).
  exists this, t, hit. repeat split; assumption.
Defined.

(** X12.  A separate hit object with a hit label gets [actionsEnabled] false
    and one [gotoAndStop] to the hit label when it has the method
    (never [gotoAndPlay], whatever [play] is); with a hit label that is
    falsy (omitted, 0 or the empty string) it is installed untouched.
    The target receives nothing for it. *)
Theorem constructor_hit_object (target : displayObject)
    (a1 a2 a3 a4 a5 a6 pl : value) (o : displayObject) (hitLabel : value) :
  addEventListener target = true ->
  exists (this : helper) (t o' : displayObject),
    RadioButtonHelper target a1 a2 a3 a4 a5 a6 pl (HitObject o) hitLabel
      = Done (Live this, t, HitObject o')
    /\ hitArea t = HitOther
    /\ calls t = calls target ++ map AddEventListener event_names
                   ++ emitted this (outFalseLabel this) target
    /\ (truthy hitLabel = false -> o' = o)
    /\ (truthy hitLabel = true ->
        actionsEnabled o' = VBool false
        /\ calls o' = calls o ++ (if gotoAndStop o then [GotoAndStop hitLabel] else [])
        /\ paused o' = paused o /\ cursor o' = cursor o /\ hitArea o' = hitArea o).
Proof.
  intros Ha. rewrite constructor_live by exact Ha.
  cbn [with_hitArea fst snd]. do 3 eexists.
  split; [reflexivity |].
  split; [destruct (set_up _ target); reflexivity |].
  split.
  { rewrite <- calls_set_up. destruct (set_up _ target); reflexivity. }
  split; [now intros -> |].
  intros ->. unfold guarded_gotoAndStop.
  open_target o. destruct gs; cbn; repeat split. now rewrite app_nil_r.
Qed.

Lemma constructor_hit_object_witness :
  exists (this : helper) (t o' : displayObject),
    RadioButtonHelper sample_target VUndefined VUndefined VUndefined
                      VUndefined VUndefined VUndefined (VBool true)
                      (HitObject shape_target) (VNum 0)
      = Done (Live this, t, HitObject o')
    /\ truthy (VNum 0) = false
    /\ o' = shape_target.
Proof.
  destruct (constructor_hit_object sample_target VUndefined VUndefined VUndefined
              VUndefined VUndefined VUndefined (VBool true) shape_target (VNum 0)
              eq_refl)
    as (this & t & o' & E & _ & _ & H & _).
  exists this, t, o'. split; [exact E |]. split; [reflexivity |].
  apply H. reflexivity.
Defined.

(** X13.  When the target is given as its own hit area together with a hit
    label, the last call the target receives from the constructor is
    [gotoAndStop] to the hit label, after the seek to the out label:
    the target is left on the hit label, with [actionsEnabled] false. *)
Theorem constructor_target_as_hit_area (target : displayObject)
    (a1 a2 a3 a4 a5 a6 pl hitLabel : value) :
  addEventListener target = true ->
  gotoAndStop target = true ->
  truthy hitLabel = true ->
  exists (this : helper) (t : displayObject),
    RadioButtonHelper target a1 a2 a3 a4 a5 a6 pl HitTarget hitLabel
      = Done (Live this, t, HitTarget)
    /\ hitArea t = HitSelf
    /\ actionsEnabled t = VBool false
    /\ calls t = calls target ++ map AddEventListener event_names
                   ++ emitted this (outFalseLabel this) target
                   ++ [GotoAndStop hitLabel].
Proof.
  intros Ha Hg Ht. rewrite constructor_live by exact Ha.
  cbn [with_hitArea fst snd]. rewrite Ht. do 2 eexists.
  split; [reflexivity |].
  assert (G : gotoAndStop (set_actionsEnabled (VBool false)
                (set_up (built a1 a2 a3 a4 a5 a6 pl) target)) = true).
  { unfold set_up, show, wrapped, subscribed, guarded_gotoAndPlay, guarded_gotoAndStop.
    open_target target. subst.
    destruct (truthy pl), gp, rs; reflexivity. }
  unfold guarded_gotoAndStop at 1 2 3. rewrite G.
  split; [reflexivity |]. split; [reflexivity |].
  cbn [calls set_hitArea record set_actionsEnabled].
  rewrite calls_set_up, <- !app_assoc. reflexivity.
Qed.

Lemma constructor_target_as_hit_area_witness :
  exists (this : helper) (t : displayObject),
    RadioButtonHelper sample_target (VStr "outfalse") (VStr "overfalse")
                      (VStr "downfalse") (VStr "outtrue") (VStr "overtrue")
                      (VStr "downtrue") (VBool false) HitTarget (VStr "hit")
      = Done (Live this, t, HitTarget)
    /\ calls t = [AddEventListener "rollover"; AddEventListener "rollout";
                  AddEventListener "mousedown"; AddEventListener "pressup";
                  GotoAndStop (VStr "outfalse"); GotoAndStop (VStr "hit")].
Proof.
  destruct (constructor_target_as_hit_area sample_target (VStr "outfalse")
              (VStr "overfalse") (VStr "downfalse") (VStr "outtrue")
              (VStr "overtrue") (VStr "downtrue") (VBool false) (VStr "hit")
              eq_refl eq_refl eq_refl)
    as (this & t & E & _ & _ & H).
  exists this, t. split; [exact E |].
  cbv in E. injection E as <- _. exact H.
Defined.

Lemma with_hitArea_frame (hit_arg : hitarg) (hitLabel : value) (t : displayObject) :
  removeEventListener (fst (with_hitArea hit_arg hitLabel t)) = removeEventListener t
  /\ _reset (fst (with_hitArea hit_arg hitLabel t)) = _reset t
  /\ __reset (fst (with_hitArea hit_arg hitLabel t)) = __reset t
  /\ paused (fst (with_hitArea hit_arg hitLabel t)) = paused t
  /\ filter is_subscription (calls (fst (with_hitArea hit_arg hitLabel t)))
     = filter is_subscription (calls t).
Proof.
  unfold with_hitArea, guarded_gotoAndStop. open_target t.
  destruct hit_arg, (truthy hitLabel), gs; cbn; repeat split;
    rewrite filter_app; cbn; apply app_nil_r.
Qed.

Lemma set_up_frame (this : helper) (target : displayObject) :
  removeEventListener (set_up this target) = removeEventListener target
  /\ paused (set_up this target) = paused target
  /\ filter is_subscription (calls (set_up this target))
     = filter is_subscription (calls target) ++ map AddEventListener event_names
  /\ match _reset target with
     | Some r => _reset (set_up this target) = Some Injected
                 /\ __reset (set_up this target) = Some r
     | None => _reset (set_up this target) = None
               /\ __reset (set_up this target) = __reset target
     end.
Proof.
  split; [| split; [| split]].
  - unfold set_up, show, wrapped, subscribed, guarded_gotoAndPlay, guarded_gotoAndStop.
    open_target target. destruct (truthy (play this)), gp, gs, rs; reflexivity.
  - unfold set_up, show, wrapped, subscribed, guarded_gotoAndPlay, guarded_gotoAndStop.
    open_target target. destruct (truthy (play this)), gp, gs, rs; reflexivity.
  - rewrite calls_set_up, !filter_app, emitted_no_subscription, app_nil_r.
    reflexivity.
  - unfold set_up, show, wrapped, subscribed, guarded_gotoAndPlay, guarded_gotoAndStop.
    open_target target. destruct (truthy (play this)), gp, gs, rs; split; reflexivity.
Qed.

Lemma unwrapped_unsubscribed_slots (t : displayObject) (r : hook) :
  __reset t = Some r ->
  _reset (unwrapped (unsubscribed t)) = Some r
  /\ __reset (unwrapped (unsubscribed t)) = None
  /\ cursor (unwrapped (unsubscribed t)) = VNull
  /\ paused (unwrapped (unsubscribed t)) = paused t.
Proof.
  intros H. unfold unwrapped, unsubscribed. open_target t. subst. cbn.
  repeat split.
Qed.

(** X14.  Disabling a helper fresh from its constructor undoes the wiring:
    the four listeners are removed (four [removeEventListener] after
    the four [addEventListener], nothing else subscribed), the cursor is
    [null], the target's own reset is back in [_reset] with no
    [__reset], and a reset then acts on [paused] as the own reset
    does, no longer keeping it. *)
Theorem construct_then_disable (target : displayObject)
    (a1 a2 a3 a4 a5 a6 pl : value) (hit_arg : hitarg) (hitLabel : value)
    (f : value -> value) (fuel : nat) :
  addEventListener target = true ->
  removeEventListener target = true ->
  _reset target = Some (Original f) ->
  exists (this : helper) (t t2 t3 : displayObject) (hit : hitarg),
    RadioButtonHelper target a1 a2 a3 a4 a5 a6 pl hit_arg hitLabel
      = Done (Live this, t, hit)
    /\ setEnabled false this t = Done (set_enabled false this, t2)
    /\ cursor t2 = VNull
    /\ _reset t2 = Some (Original f)
    /\ __reset t2 = None
    /\ filter is_subscription (calls t2)
       = filter is_subscription (calls target)
           ++ map AddEventListener event_names
           ++ map RemoveEventListener event_names
    /\ call_reset fuel t2 = Done t3
    /\ paused t3 = f (paused target).
Proof.
  intros Ha Hr Hf. rewrite constructor_live by exact Ha.
  set (this := built a1 a2 a3 a4 a5 a6 pl).
  set (t := fst (with_hitArea hit_arg hitLabel (set_up this target))).
  destruct (with_hitArea_frame hit_arg hitLabel (set_up this target))
    as (W1 & W2 & W3 & W4 & W5).
  destruct (set_up_frame this target) as (S1 & S2 & S3 & S4).
  rewrite Hf in S4. destruct S4 as [S4 S5].
  fold t in W1, W2, W3, W4, W5.
  assert (R : removeEventListener t = true) by congruence.
  assert (U : _reset (unwrapped (unsubscribed t)) = Some (Original f)
              /\ __reset (unwrapped (unsubscribed t)) = None
              /\ cursor (unwrapped (unsubscribed t)) = VNull
              /\ paused (unwrapped (unsubscribed t)) = paused target).
  { assert (Q : __reset t = Some (Original f)) by congruence.
    destruct (unwrapped_unsubscribed_slots t (Original f) Q) as (Q1 & Q2 & Q3 & Q4).
    repeat split; congruence. }
  destruct U as (U1 & U2 & U3 & U4).
  exists this, t, (unwrapped (unsubscribed t)).
  eexists. exists (snd (with_hitArea hit_arg hitLabel (set_up this target))).
  split; [reflexivity |].
  split; [now apply setEnabled_false_when_enabled |].
  do 3 (split; [assumption |]).
  split.
  { rewrite calls_unwrapped_unsubscribed, filter_app, W5, S3, <- app_assoc.
    reflexivity. }
  unfold call_reset. rewrite U1. destruct fuel; cbn [call_hook]; split;
    try reflexivity; cbn; now rewrite U4.
Qed.

Lemma construct_then_disable_witness :
  exists (this : helper) (t t2 t3 : displayObject) (hit : hitarg),
    RadioButtonHelper sample_target VUndefined VUndefined VUndefined
                      VUndefined VUndefined VUndefined VUndefined
                      HitOmitted VUndefined
      = Done (Live this, t, hit)
    /\ setEnabled false this t = Done (set_enabled false this, t2)
    /\ paused sample_target = VBool true
    /\ call_reset 1 t2 = Done t3
    /\ paused t3 = VBool false.
Proof.
  destruct (construct_then_disable sample_target VUndefined VUndefined VUndefined
              VUndefined VUndefined VUndefined VUndefined HitOmitted VUndefined
              (fun _ => VBool false) 1 eq_refl eq_refl eq_refl)
    as (this & t & t2 & t3 & hit & E & H1 & _ & _ & _ & _ & H2 & H3).
  exists this, t, t2, t3, hit. repeat split; assumption.
Defined.

(** ** A click and setValue *)

(** X15.  On a button that is not pressed, a click ("mousedown" then
    "pressup") leaves the helper exactly as [setValue] of the opposite
    value does, and the label it ends on is the label [setValue] shows;
    the click shows the down label of the new value on the way. *)
Theorem click_is_setValue_of_opposite (this : helper) (t : displayObject) :
  _isPressed this = false ->
  let v := negb (getValue this) in
  let final := label_for this v false (_isOver this) in
  fst (deliver [mousedown; pressup] this t) = fst (setValue v this t)
  /\ snd (setValue v this t) = show this final t
  /\ snd (deliver [mousedown; pressup] this t)
     = show this final (show this (label_for this v true (_isOver this)) t).
Proof.
  intros Hp. unfold getValue, deliver, handleEvent, handleEvent_label,
    setValue, setValue_label, label_for, priority_label.
  flags this. subst pressed. destruct checked, over; repeat split.
Qed.

Lemma click_is_setValue_of_opposite_witness :
  _isPressed (sample_helper false false true) = false
  /\ fst (deliver [mousedown; pressup] (sample_helper false false true) sample_target)
     = fst (setValue true (sample_helper false false true) sample_target)
  /\ snd (setValue true (sample_helper false false true) sample_target)
     = record (GotoAndStop (VStr "overTrue")) sample_target.
Proof.
  split; [reflexivity |].
  destruct (click_is_setValue_of_opposite (sample_helper false false true)
              sample_target eq_refl) as (H1 & H2 & _).
  split; [exact H1 | exact H2].
Defined.
